(* Verification model of the AWS MCP server (src/mcp-server-aws.js):
   the line-delimited JSON-RPC 2.0 dispatcher, its tool catalog, its
   handler table and the best-effort diagnostic log. *)

From Stdlib Require Import String Ascii List ZArith Bool Lia.
Import ListNotations.
Open Scope string_scope.
Set Warnings "-register-all".

(* ------------------------------------------------------------------ *)
(** * JSON values as produced by [JSON.parse]                          *)
(* ------------------------------------------------------------------ *)

(** Numbers are the integers of the JavaScript number type (the
    catalog and the claims use no fractions).  Objects keep their
    members in source order; a duplicated key resolves to its last
    occurrence, as [JSON.parse] does. *)
Inductive json : Type :=
| JNull
| JBool (b : bool)
| JNum (z : Z)
| JStr (s : string)
| JArr (items : list json)
| JObj (members : list (string * json)).

(** A JavaScript value read from a JSON value: [None] is [undefined]. *)
Definition jsval := option json.

Fixpoint assoc_last (k : string) (ms : list (string * json)) : option json :=
  match ms with
  | [] => None
  | (k', v) :: ms' =>
      match assoc_last k ms' with
      | Some v' => Some v'
      | None => if String.eqb k k' then Some v else None
      end
  end.

(** [v.k] on a value that is neither [null] nor [undefined].  None of the
    keys this program reads is an own or inherited property of a string,
    number, boolean or array, so those give [undefined]. *)
Definition js_prop (v : json) (k : string) : jsval :=
  match v with
  | JObj ms => assoc_last k ms
  | _ => None
  end.

(** JavaScript truthiness. *)
Definition truthy (v : jsval) : bool :=
  match v with
  | None | Some JNull => false
  | Some (JBool b) => b
  | Some (JNum z) => negb (Z.eqb z 0)
  | Some (JStr s) => negb (String.eqb s "")
  | Some (JArr _) | Some (JObj _) => true
  end.

(** [a || d] with a default that is itself a value. *)
Definition js_or (a : jsval) (d : json) : json :=
  match a with
  | Some v => if truthy a then v else d
  | None => d
  end.

(** [v === "s"] *)
Definition strict_eq_str (v : jsval) (s : string) : bool :=
  match v with
  | Some (JStr s') => String.eqb s' s
  | _ => false
  end.

(** Decimal rendering of an integer, as [String(n)]. *)
Fixpoint pos_to_dec (fuel : nat) (n : Z) (acc : string) : string :=
  match fuel with
  | O => acc
  | S f =>
      let acc' := String (ascii_of_nat (48 + Z.to_nat (n mod 10))) acc in
      if Z.eqb (n / 10) 0 then acc' else pos_to_dec f (n / 10) acc'
  end.

Definition Z_to_dec (z : Z) : string :=
  if Z.eqb z 0 then "0"
  else if Z.ltb z 0 then "-" ++ pos_to_dec (S (Z.to_nat (Z.log2 (- z)))) (- z) ""
  else pos_to_dec (S (Z.to_nat (Z.log2 z))) z "".

(** [String(v)] (template-literal interpolation and property keys):
    arrays are joined with commas, [null] elements giving the empty
    string; plain objects give "[object Object]". *)
Fixpoint json_to_string (v : json) : string :=
  match v with
  | JNull => "null"
  | JBool true => "true"
  | JBool false => "false"
  | JNum z => Z_to_dec z
  | JStr s => s
  | JArr items =>
      (fix join (l : list json) : string :=
         match l with
         | [] => ""
         | [x] => match x with JNull => "" | _ => json_to_string x end
         | x :: l' =>
             (match x with JNull => "" | _ => json_to_string x end)
               ++ "," ++ join l'
         end) items
  | JObj _ => "[object Object]"
  end.

Definition js_to_string (v : jsval) : string :=
  match v with
  | None => "undefined"
  | Some j => json_to_string j
  end.

(** An object literal whose members may be [undefined]; [JSON.stringify]
    drops those members. *)
Definition js_object (ms : list (string * jsval)) : json :=
  JObj (flat_map (fun m => match snd m with
                           | Some v => [(fst m, v)]
                           | None => []
                           end) ms).

(* ------------------------------------------------------------------ *)
(** * Input lines, output envelopes and the diagnostic log            *)
(* ------------------------------------------------------------------ *)

(** One input line, seen through [JSON.parse]: either it is not
    well-formed JSON, or it parses to a value. *)
Inductive line : Type :=
| Malformed (text : string)
| Wellformed (v : json).

(** One output line of [console.log(JSON.stringify(...))].  An [id] or
    [result] that is [undefined] is left out of the printed object. *)
Inductive envelope : Type :=
| Response (id : jsval) (result : jsval)
| ErrorResponse (id : jsval) (code : Z) (message : string)
| Notification (method : string) (params : json).

Definition envelope_id (e : envelope) : jsval :=
  match e with
  | Response id _ => id
  | ErrorResponse id _ _ => id
  | Notification _ _ => None
  end.

(** The entries [log] appends to /tmp/aws-mcp-server.log (each prefixed
    there with a timestamp). *)
Inductive log_entry : Type :=
| info (m : string)
| received_request (request : json)
| tool_execution_error (m : string)
| processing_error (m : string)
| sending_response (e : envelope)
| sending_error (e : envelope).

(** A thrown JavaScript error: its constructor name and [.message]. *)
Record js_error := mkError { err_name : string; err_message : string }.

Definition Error (m : string) := mkError "Error" m.
Definition TypeError (m : string) := mkError "TypeError" m.

(** What [fs.appendFileSync] throws when the log file cannot be written. *)
Definition log_write_error : js_error :=
  Error "EACCES: permission denied, open '/tmp/aws-mcp-server.log'".

(** The process state the dispatcher reads and writes: standard output,
    the log file and the AWS SDK's global [AWS.config.region]. *)
Record world := mkWorld {
  out : list envelope;
  logfile : list log_entry;
  region : jsval
}.

(* ------------------------------------------------------------------ *)
(** * A state and exception monad                                     *)
(* ------------------------------------------------------------------ *)

(** State changes made before a throw persist, as in JavaScript. *)
Definition M (A : Type) := world -> (js_error + A) * world.

Definition ret {A} (a : A) : M A := fun w => (inr a, w).

Definition bind {A B} (m : M A) (k : A -> M B) : M B :=
  fun w => match m w with
           | (inl e, w') => (inl e, w')
           | (inr a, w') => k a w'
           end.

Definition throw {A} (e : js_error) : M A := fun w => (inl e, w).

Definition try_catch {A} (m : M A) (h : js_error -> M A) : M A :=
  fun w => match m w with
           | (inl e, w') => h e w'
           | ok => ok
           end.

Notation "x <- m ;; k" := (bind m (fun x => k))
  (at level 61, m at next level, right associativity).
Notation "m ;;; k" := (bind m (fun _ : unit => k))
  (at level 61, right associativity).

(** [console.log]: append one line to standard output. *)
Definition emit (e : envelope) : M unit :=
  fun w => (inr tt, mkWorld (out w ++ [e]) (logfile w) (region w)).

Definition read_region : M jsval := fun w => (inr (region w), w).

(** [AWS.config.update({ region: r })] *)
Definition set_region (r : jsval) : M unit :=
  fun w => (inr tt, mkWorld (out w) (logfile w) r).

(** [v.k]: throws on [null] and [undefined]. *)
Definition get (v : jsval) (k : string) : M jsval :=
  match v with
  | None => throw (TypeError ("Cannot read properties of undefined (reading '" ++ k ++ "')"))
  | Some JNull => throw (TypeError ("Cannot read properties of null (reading '" ++ k ++ "')"))
  | Some j => ret (js_prop j k)
  end.

(** [v?.k] *)
Definition get_opt (v : jsval) (k : string) : M jsval :=
  match v with
  | None | Some JNull => ret None
  | Some j => ret (js_prop j k)
  end.

(** [JSON.parse(line)] *)
Definition JSON_parse (l : line) : M json :=
  match l with
  | Malformed _ => throw (mkError "SyntaxError" "Unexpected token in JSON")
  | Wellformed v => ret v
  end.

(* ------------------------------------------------------------------ *)
(** * The static tool catalog ([const tools = [...]])                  *)
(* ------------------------------------------------------------------ *)

Record tool := mkTool {
  name : string;
  description : string;
  parameters : json
}.

Definition str_prop (d : string) : json :=
  JObj [("type", JStr "string"); ("description", JStr d)].
Definition num_prop (d : string) : json :=
  JObj [("type", JStr "number"); ("description", JStr d)].
Definition str_array_prop (d : string) : json :=
  JObj [("type", JStr "array"); ("description", JStr d);
        ("items", JObj [("type", JStr "string")])].
Definition region_prop : string * json :=
  ("region", str_prop "AWS region (e.g., us-west-2)").

(** [{ type: "object", properties: {...}, required: [...] }] *)
Definition object_schema (props : list (string * json)) (req : list string) : json :=
  JObj [("type", JStr "object"); ("properties", JObj props);
        ("required", JArr (map JStr req))].

Definition tools : list tool := [
  mkTool "aws.ec2.describeInstances" "List EC2 instances and their details"
    (object_schema
       [region_prop;
        ("filters", JObj [("type", JStr "array");
                          ("description", JStr "Optional filters to apply");
                          ("items", JObj [("type", JStr "object");
                                          ("properties", JObj [
                                             ("Name", JObj [("type", JStr "string")]);
                                             ("Values", JObj [("type", JStr "array");
                                                              ("items", JObj [("type", JStr "string")])])])])])]
       []);
  mkTool "aws.ec2.describeVpcs" "List VPCs and their details"
    (object_schema [region_prop; ("vpcIds", str_array_prop "Optional VPC IDs to filter")] []);
  mkTool "aws.ec2.describeSecurityGroups" "List security groups and their details"
    (object_schema [region_prop; ("groupIds", str_array_prop "Optional security group IDs to filter")] []);
  mkTool "aws.s3.listBuckets" "List all S3 buckets"
    (object_schema [region_prop] []);
  mkTool "aws.s3.listObjects" "List objects in an S3 bucket"
    (object_schema [region_prop; ("bucket", str_prop "S3 bucket name");
                    ("prefix", str_prop "Optional prefix to filter objects")] ["bucket"]);
  mkTool "aws.lambda.listFunctions" "List Lambda functions"
    (object_schema [region_prop] []);
  mkTool "aws.lambda.getFunctionConfiguration" "Get detailed configuration for a Lambda function"
    (object_schema [region_prop; ("functionName", str_prop "Name or ARN of the Lambda function")]
       ["functionName"]);
  mkTool "aws.dynamodb.listTables" "List DynamoDB tables"
    (object_schema [region_prop] []);
  mkTool "aws.dynamodb.describeTable" "Get detailed information about a DynamoDB table"
    (object_schema [region_prop; ("tableName", str_prop "Name of the DynamoDB table")] ["tableName"]);
  mkTool "aws.cloudwatch.getMetricStatistics" "Get CloudWatch metrics for a resource"
    (object_schema
       [region_prop;
        ("namespace", str_prop "Metric namespace (e.g., AWS/EC2)");
        ("metricName", str_prop "Name of the metric");
        ("dimensions", JObj [("type", JStr "array");
                             ("description", JStr "Dimensions for the metric");
                             ("items", JObj [("type", JStr "object");
                                             ("properties", JObj [
                                                ("Name", JObj [("type", JStr "string")]);
                                                ("Value", JObj [("type", JStr "string")])])])]);
        ("startTime", str_prop "Start time for metrics (ISO format or relative time like -3h)");
        ("endTime", str_prop "End time for metrics (ISO format or current time by default)");
        ("period", num_prop "Period in seconds (60, 300, 3600, etc.)");
        ("statistics", str_array_prop "Statistics to retrieve (Average, Maximum, Minimum, SampleCount, Sum)")]
       ["namespace"; "metricName"]);
  mkTool "aws.cloudwatch.describeAlarms" "List CloudWatch alarms"
    (object_schema
       [region_prop;
        ("alarmNames", str_array_prop "Optional alarm names to filter");
        ("alarmTypes", JObj [("type", JStr "array");
                             ("description", JStr "Optional alarm types to filter");
                             ("items", JObj [("type", JStr "string");
                                             ("enum", JArr [JStr "MetricAlarm"; JStr "CompositeAlarm"])])]);
        ("stateValue", JObj [("type", JStr "string");
                             ("description", JStr "Optional state to filter by (OK, ALARM, INSUFFICIENT_DATA)");
                             ("enum", JArr [JStr "OK"; JStr "ALARM"; JStr "INSUFFICIENT_DATA"])])]
       []);
  mkTool "aws.iam.listUsers" "List IAM users"
    (object_schema [("pathPrefix", str_prop "Optional path prefix to filter users");
                    ("maxItems", num_prop "Maximum number of items to return")] []);
  mkTool "aws.iam.listRoles" "List IAM roles"
    (object_schema [("pathPrefix", str_prop "Optional path prefix to filter roles");
                    ("maxItems", num_prop "Maximum number of items to return")] []);
  mkTool "aws.rds.describeDBInstances" "List RDS database instances"
    (object_schema [region_prop;
                    ("dbInstanceIdentifier", str_prop "Optional database instance identifier")] []);
  mkTool "aws.sns.listTopics" "List SNS topics"
    (object_schema [region_prop] []);
  mkTool "aws.sqs.listQueues" "List SQS queues"
    (object_schema [region_prop;
                    ("queueNamePrefix", str_prop "Optional prefix to filter queue names")] []);
  mkTool "aws.cloudformation.listStacks" "List CloudFormation stacks"
    (object_schema [region_prop; ("stackStatusFilter", str_array_prop "Optional status filters")] []);
  mkTool "aws.route53.listHostedZones" "List Route53 hosted zones"
    (object_schema [("maxItems", num_prop "Maximum number of items to return")] []);
  mkTool "aws.cloudfront.listDistributions" "List CloudFront distributions"
    (object_schema [("maxItems", num_prop "Maximum number of items to return")] []);
  mkTool "aws.ecs.listClusters" "List ECS clusters"
    (object_schema [region_prop] []);
  mkTool "aws.eks.listClusters" "List EKS clusters"
    (object_schema [region_prop] []);
  mkTool "ping" "Responds with pong"
    (object_schema [] [])
].

(** The [tools/list] reshaping of one catalog entry. *)
Definition tool_descriptor (t : tool) : json :=
  JObj [("name", JStr (name t));
        ("description", JStr (description t));
        ("inputSchema",
          JObj [("type", JStr "object");
                ("properties", js_or (js_prop (parameters t) "properties") (JObj []));
                ("required", js_or (js_prop (parameters t) "required") (JArr []));
                ("additionalProperties", JBool false)])].

(* ------------------------------------------------------------------ *)
(** * The handler table ([const toolHandlers = {...}])                 *)
(* ------------------------------------------------------------------ *)

Inductive handler : Type :=
| ping
| ec2_describeInstances
| s3_listBuckets
| s3_listObjects
| lambda_listFunctions
| dynamodb_listTables
| cloudwatch_getMetricStatistics
(** a member inherited from [Object.prototype], which a lookup
    [toolHandlers[key]] on the plain object also finds *)
| object_prototype_member (member : string).

Definition toolHandlers : list (string * handler) := [
  ("ping", ping);
  ("aws.ec2.describeInstances", ec2_describeInstances);
  ("aws.s3.listBuckets", s3_listBuckets);
  ("aws.s3.listObjects", s3_listObjects);
  ("aws.lambda.listFunctions", lambda_listFunctions);
  ("aws.dynamodb.listTables", dynamodb_listTables);
  ("aws.cloudwatch.getMetricStatistics", cloudwatch_getMetricStatistics)
].

Definition object_prototype_members : list string :=
  ["constructor"; "__defineGetter__"; "__defineSetter__"; "hasOwnProperty";
   "__lookupGetter__"; "__lookupSetter__"; "isPrototypeOf";
   "propertyIsEnumerable"; "toString"; "valueOf"; "__proto__"; "toLocaleString"].

Definition own_handler (key : string) : option handler :=
  match find (fun p => String.eqb (fst p) key) toolHandlers with
  | Some (_, h) => Some h
  | None => None
  end.

(** [toolHandlers[key]]: an own member, else an inherited one, else
    [undefined].  Every member found is truthy (a function, or for
    [__proto__] the object [Object.prototype]). *)
Definition toolHandlers_lookup (key : string) : option handler :=
  match own_handler key with
  | Some h => Some h
  | None => if existsb (String.eqb key) object_prototype_members
            then Some (object_prototype_member key) else None
  end.

(* ------------------------------------------------------------------ *)
(** * The server                                                       *)
(* ------------------------------------------------------------------ *)

Section Server.

(** The remote AWS call behind each AWS handler: the operation, the
    region the handler resolved and the tool parameters it received, to
    either the SDK's error message or the result payload the handler
    builds from the SDK response.  The request built from the parameters,
    the network call and the shaping of its response are all inside the
    [try] that rethrows as "<Service> Error: <message>". *)
Variable aws_sdk : string -> jsval -> json -> string + json.

(** Whether [fs.appendFileSync] on the log file raises. *)
Variable log_raises : bool.

(** [log(message)]: no guard around [fs.appendFileSync]. *)
Definition log (m : log_entry) : M unit :=
  fun w =>
    if log_raises
    then (inl log_write_error, w)
    else (inr tt, mkWorld (out w) (logfile w ++ [m]) (region w)).

(** [sendResponse(id, result)] *)
Definition sendResponse (id : jsval) (result : jsval) : M unit :=
  let response := Response id result in
  log (sending_response response) ;;;
  emit response.

(** [sendErrorResponse(id, code, message)] *)
Definition sendErrorResponse (id : jsval) (code : Z) (message : string) : M unit :=
  let response := ErrorResponse id code message in
  log (sending_error response) ;;;
  emit response.

(** [AWS.config.region || 'us-west-2'] *)
Definition current_region : M jsval :=
  cur <- read_region ;;
  ret (Some (js_or cur (JStr "us-west-2"))).

(** [handleRegion(params)] *)
Definition handleRegion (params : json) : M jsval :=
  if truthy (Some params) then
    r <- get (Some params) "region" ;;
    if truthy r then set_region r ;;; ret r else current_region
  else current_region.

(** The AWS handlers: resolve the region, run the argument checks that
    precede the [try], then the remote call, whose failure is rethrown
    with the service prefix. *)
Definition aws_handler (operation service : string) (checks : json -> M unit)
    (params : json) : M jsval :=
  r <- handleRegion params ;;
  checks params ;;;
  match aws_sdk operation r params with
  | inl m => throw (Error (service ++ " Error: " ++ m))
  | inr payload => ret (Some payload)
  end.

Definition no_checks (_ : json) : M unit := ret tt.

(** [if (!params.k) throw new Error(m)] *)
Definition require_param (k m : string) (params : json) : M unit :=
  v <- get (Some params) k ;;
  if truthy v then ret tt else throw (Error m).

Definition listObjects_checks (params : json) : M unit :=
  require_param "bucket" "Bucket name is required" params.

Definition getMetricStatistics_checks (params : json) : M unit :=
  require_param "namespace" "Namespace is required" params ;;;
  require_param "metricName" "Metric name is required" params.

(** [toolHandlers[key](toolParams)] for an inherited member, called with
    [this] bound to [toolHandlers].  [Object(p)] returns [p] (a primitive
    is boxed, which [JSON.stringify] prints as the primitive);
    [valueOf] returns [toolHandlers], whose members are all functions
    and so print as [{}]. *)
Definition object_prototype_call (member : string) (p : json) : M jsval :=
  if String.eqb member "constructor" then ret (Some p)
  else if String.eqb member "hasOwnProperty" || String.eqb member "propertyIsEnumerable"
  then ret (Some (JBool (match own_handler (json_to_string p) with Some _ => true | None => false end)))
  else if String.eqb member "isPrototypeOf" then ret (Some (JBool false))
  else if String.eqb member "toString" || String.eqb member "toLocaleString"
  then ret (Some (JStr "[object Object]"))
  else if String.eqb member "valueOf" then ret (Some (JObj []))
  else if String.eqb member "__lookupGetter__" || String.eqb member "__lookupSetter__"
  then ret None
  else if String.eqb member "__defineGetter__" || String.eqb member "__defineSetter__"
  then throw (TypeError ("Object.prototype." ++ member ++ ": Expecting function"))
  else throw (TypeError "toolHandlers[toolName] is not a function").

(** Calling a handler of the table on the tool parameters. *)
Definition call_handler (h : handler) (toolParams : json) : M jsval :=
  match h with
  | ping => ret (Some (JObj [("result", JStr "pong")]))
  | ec2_describeInstances =>
      aws_handler "EC2.describeInstances" "EC2" no_checks toolParams
  | s3_listBuckets =>
      aws_handler "S3.listBuckets" "S3" no_checks toolParams
  | s3_listObjects =>
      aws_handler "S3.listObjectsV2" "S3" listObjects_checks toolParams
  | lambda_listFunctions =>
      aws_handler "Lambda.listFunctions" "Lambda" no_checks toolParams
  | dynamodb_listTables =>
      aws_handler "DynamoDB.listTables" "DynamoDB" no_checks toolParams
  | cloudwatch_getMetricStatistics =>
      aws_handler "CloudWatch.getMetricStatistics" "CloudWatch"
        getMetricStatistics_checks toolParams
  | object_prototype_member m => object_prototype_call m toolParams
  end.

Definition invalid_request_message := "Invalid Request: Not JSON-RPC 2.0".

(** The [tools/list] result. *)
Definition tools_list_result : json :=
  JObj [("tools", JArr (map tool_descriptor tools))].

(** The [initialize] result. *)
Definition initialize_result (protocolVersion : jsval) : json :=
  js_object [("protocolVersion", protocolVersion);
             ("capabilities", Some (JObj [("tools", JObj [])]));
             ("serverInfo", Some (JObj [("name", JStr "aws-mcp-server");
                                        ("version", JStr "1.0.0")]))].

(** The body of the [try] in [rl.on('line', ...)] after [JSON.parse]. *)
Definition process_request (request : json) : M unit :=
  log (received_request request) ;;;
  jsonrpc <- get (Some request) "jsonrpc" ;;
  if negb (strict_eq_str jsonrpc "2.0") then
    id <- get (Some request) "id" ;;
    sendErrorResponse id (-32600) invalid_request_message
  else
  method <- get (Some request) "method" ;;
  if strict_eq_str method "initialize" then
    id <- get (Some request) "id" ;;
    params <- get (Some request) "params" ;;
    protocolVersion <- get params "protocolVersion" ;;
    sendResponse id (Some (initialize_result protocolVersion))
  else if strict_eq_str method "tools/list" then
    id <- get (Some request) "id" ;;
    sendResponse id (Some tools_list_result)
  else if strict_eq_str method "tools/invoke" then
    params <- get (Some request) "params" ;;
    toolName <- get_opt params "name" ;;
    params' <- get (Some request) "params" ;;
    parameters <- get_opt params' "parameters" ;;
    let toolParams := js_or parameters (JObj []) in
    match (if truthy toolName then toolHandlers_lookup (js_to_string toolName) else None) with
    | None =>
        id <- get (Some request) "id" ;;
        sendErrorResponse id (-32601) ("Tool '" ++ js_to_string toolName ++ "' not found")
    | Some h =>
        try_catch
          (result <- call_handler h toolParams ;;
           id <- get (Some request) "id" ;;
           sendResponse id result)
          (fun error =>
             log (tool_execution_error (err_message error)) ;;;
             id <- get (Some request) "id" ;;
             sendErrorResponse id (-32000) ("Tool execution error: " ++ err_message error))
    end
  else if strict_eq_str method "notifications/initialized" then
    ret tt
  else
    id <- get (Some request) "id" ;;
    sendErrorResponse id (-32601) "Method not found".

(** The [rl.on('line', async (line) => ...)] callback.  An [inl] result
    is an error thrown out of the [catch] block: it rejects the callback's
    promise, which nothing handles. *)
Definition process_line (l : line) : M unit :=
  try_catch
    (request <- JSON_parse l ;; process_request request)
    (fun error =>
       log (processing_error (err_message error)) ;;;
       sendErrorResponse (Some JNull) (-32700) "Parse error").

(** The transport loop, each line processed to completion before the
    next one.  An unhandled rejection terminates the Node.js process,
    so no later line is processed. *)
Fixpoint run_lines (ls : list line) : M unit :=
  match ls with
  | [] => ret tt
  | l :: ls' => process_line l ;;; run_lines ls'
  end.

(** The top level of the script before input is read. *)
Definition startup : M unit :=
  log (info "[aws] [info] Initializing server...") ;;;
  set_region (Some (JStr "us-west-2")) ;;;
  log (info "[aws] [info] Server started and connected successfully") ;;;
  emit (Notification "notifications/ready" (JObj [])).


End Server.

(* ------------------------------------------------------------------ *)
(** * [parseRelativeTime]                                              *)
(* ------------------------------------------------------------------ *)













(* ------------------------------------------------------------------ *)
(** * Evaluation lemmas                                                *)
(* ------------------------------------------------------------------ *)

(** The requests that produce no output at all. *)
Definition is_initialized_notification (r : json) : bool :=
  strict_eq_str (js_prop r "jsonrpc") "2.0"
  && strict_eq_str (js_prop r "method") "notifications/initialized".

Definition parse_error : envelope := ErrorResponse (Some JNull) (-32700) "Parse error".

(** An action that writes nothing to standard output. *)
Definition keeps_out {A} (m : M A) : Prop := forall w, out (snd (m w)) = out w.

Lemma keeps_out_ret {A} (a : A) : keeps_out (ret a).
Proof. intro w; reflexivity. Qed.

Lemma keeps_out_throw {A} (e : js_error) : keeps_out (A := A) (throw e).
Proof. intro w; reflexivity. Qed.

Lemma keeps_out_bind {A B} (m : M A) (k : A -> M B) :
  keeps_out m -> (forall a, keeps_out (k a)) -> keeps_out (bind m k).
Proof.
  intros Hm Hk w. unfold bind. specialize (Hm w).
  destruct (m w) as [[e|a] w']; simpl in *; [assumption|].
  rewrite Hk; assumption.
Qed.

Lemma keeps_out_get v k : keeps_out (get v k).
Proof. destruct v as [[]|]; intro w; reflexivity. Qed.

Lemma keeps_out_set_region r : keeps_out (set_region r).
Proof. intro w; reflexivity. Qed.

Lemma keeps_out_read_region : keeps_out read_region.
Proof. intro w; reflexivity. Qed.

Create HintDb keeps.
#[local] Hint Resolve keeps_out_ret keeps_out_throw keeps_out_get keeps_out_set_region
  keeps_out_read_region : keeps.

Ltac keeps_out_tac :=
  repeat (intros;
    match goal with
    | |- keeps_out (bind _ _) => apply keeps_out_bind
    | |- keeps_out (if ?b then _ else _) => destruct b
    | |- keeps_out (match ?x with _ => _ end) => destruct x
    | |- _ => solve [auto with keeps]
    end).

Lemma keeps_out_handleRegion p : keeps_out (handleRegion p).
Proof. unfold handleRegion, current_region. keeps_out_tac. Qed.
#[local] Hint Resolve keeps_out_handleRegion : keeps.

Lemma keeps_out_require_param k m p : keeps_out (require_param k m p).
Proof. unfold require_param. keeps_out_tac. Qed.
#[local] Hint Resolve keeps_out_require_param : keeps.

Lemma keeps_out_aws_handler sdk op sv checks p :
  (forall q, keeps_out (checks q)) -> keeps_out (aws_handler sdk op sv checks p).
Proof. intro Hc. unfold aws_handler. keeps_out_tac. Qed.

(** Handlers write nothing to standard output. *)
Lemma keeps_out_call_handler sdk h p : keeps_out (call_handler sdk h p).
Proof.
  destruct h; simpl; try apply keeps_out_aws_handler;
    unfold no_checks, listObjects_checks, getMetricStatistics_checks,
      object_prototype_call; keeps_out_tac.
Qed.
Ltac handler_call :=
  match goal with
  | |- context [call_handler ?s ?h ?p ?w1] =>
      pose proof (keeps_out_call_handler s h p w1) as Hk;
      destruct (call_handler s h p w1) as [[e|res] w2]; cbn in *;
      eexists; (split; [rewrite Hk; reflexivity | reflexivity])
  end.


(** With a writable log, a request either throws before writing any
    output, or writes exactly one line carrying its id, or (the
    [notifications/initialized] notification) writes nothing. *)
Lemma process_request_cases sdk r w :
  match process_request sdk false r w with
  | (inl _, w') => is_initialized_notification r = false /\ out w' = out w
  | (inr _, w') => if is_initialized_notification r then out w' = out w
                   else exists e, out w' = (out w ++ [e])%list /\ envelope_id e = js_prop r "id"
  end.
Proof.
  destruct r as [| | | | |ms]; cbn -[call_handler]; try (split; reflexivity); try (eexists; split; reflexivity).
  unfold is_initialized_notification; cbn -[call_handler].
  destruct (strict_eq_str (assoc_last "jsonrpc" ms) "2.0"); cbn -[call_handler];
    [| eexists; split; reflexivity].
  destruct (assoc_last "method" ms) as [[| | | s | |]|]; cbn -[call_handler];
    try (eexists; split; reflexivity).
  destruct (String.eqb_spec s "initialize"); [subst; cbn|].
  { destruct (assoc_last "params" ms) as [[]|]; cbn; try (split; reflexivity); eexists; split; reflexivity. }
  destruct (String.eqb_spec s "tools/list"); [subst; cbn; eexists; split; reflexivity|].
  destruct (String.eqb_spec s "tools/invoke"); [subst; cbn -[call_handler]|].
  { destruct (assoc_last "params" ms) as [[| | | | |pms]|]; cbn -[call_handler];
      try (eexists; split; reflexivity).
    destruct (truthy (assoc_last "name" pms)); cbn -[call_handler];
      [| eexists; split; reflexivity].
    destruct (toolHandlers_lookup (js_to_string (assoc_last "name" pms))) as [h|];
      cbn -[call_handler]; [unfold try_catch, bind; handler_call | eexists; split; reflexivity]. }
  destruct (String.eqb_spec s "notifications/initialized"); [subst; cbn; reflexivity|].
  cbn; eexists; split; reflexivity.
Qed.


(** The same for a whole parsed line: the line handler always completes,
    and a thrown request is answered by the Parse error. *)
Lemma process_line_reply sdk r w :
  exists w', process_line sdk false (Wellformed r) w = (inr tt, w') /\
    (if is_initialized_notification r then out w' = out w
     else exists e, out w' = (out w ++ [e])%list /\
                    (e = parse_error \/ envelope_id e = js_prop r "id")).
Proof.
  pose proof (process_request_cases sdk r w) as H.
  unfold process_line, try_catch; cbn [bind JSON_parse ret].
  destruct (process_request sdk false r w) as [[e|[]] w'] eqn:E.
  - destruct H as [Hn Ho]. cbn. eexists; split; [reflexivity|].
    rewrite Hn. eexists; split; [rewrite Ho; reflexivity | left; reflexivity].
  - eexists; split; [reflexivity|].
    destruct (is_initialized_notification r); [exact H|].
    destruct H as [e [Ho Hid]]. exists e; split; [exact Ho | right; exact Hid].
Qed.

Lemma lookup_own key h : own_handler key = Some h -> toolHandlers_lookup key = Some h.
Proof. unfold toolHandlers_lookup. intros ->. reflexivity. Qed.

(** The catalog's schema check, one entry at a time: [properties] is an
    object, [required] an array of names that are all its keys. *)
Definition catalog_schema_ok (t : tool) : bool :=
  match js_prop (parameters t) "properties", js_prop (parameters t) "required" with
  | Some (JObj props), Some (JArr req) =>
      forallb (fun x => match x with
                        | JStr k => existsb (String.eqb k) (map fst props)
                        | _ => false
                        end) req
  | _, _ => false
  end.

Lemma catalog_schema_ok_spec t :
  catalog_schema_ok t = true ->
  exists props req,
    js_prop (parameters t) "properties" = Some (JObj props) /\
    js_prop (parameters t) "required" = Some (JArr req) /\
    tool_descriptor t =
      JObj [("name", JStr (name t)); ("description", JStr (description t));
            ("inputSchema", JObj [("type", JStr "object"); ("properties", JObj props);
                                  ("required", JArr req);
                                  ("additionalProperties", JBool false)])] /\
    (forall k, In (JStr k) req -> In k (map fst props)).
Proof.
  unfold catalog_schema_ok, tool_descriptor.
  destruct (js_prop (parameters t) "properties") as [[| | | | |props]|];
    try discriminate.
  destruct (js_prop (parameters t) "required") as [[| | | |req|]|];
    try discriminate.
  intro H. exists props, req. repeat split.
  intros k Hk. rewrite forallb_forall in H. specialize (H _ Hk).
  apply existsb_exists in H. destruct H as [k' [Hin Heq]].
  apply String.eqb_eq in Heq. subst k'. exact Hin.
Qed.

Lemma catalog_schema_all_ok : forallb catalog_schema_ok tools = true.
Proof. vm_compute. reflexivity. Qed.

Lemma Forall2_map_r {A B} (P : A -> B -> Prop) (f : A -> B) (l : list A) :
  (forall x, In x l -> P x (f x)) -> Forall2 P l (map f l).
Proof.
  induction l as [|x l IH]; intro H; constructor.
  - apply H. left; reflexivity.
  - apply IH. intros y Hy. apply H. right; exact Hy.
Qed.

(* ------------------------------------------------------------------ *)
(** * Concrete inputs                                                  *)
(* ------------------------------------------------------------------ *)

(** An AWS endpoint that cannot be reached. *)
Definition sdk_unreachable (operation : string) (r : jsval) (p : json) : string + json :=
  inl "connect ETIMEDOUT".

(** The process state once the script's top level has run. *)
Definition initial_world : world := snd (startup false (mkWorld [] [] None)).

(** [{"jsonrpc":"2.0","id":id,"method":method,"params":params}] with the
    [undefined] members left out. *)
Definition rpc_request (id : jsval) (method : string) (params : jsval) : json :=
  js_object [("jsonrpc", Some (JStr "2.0")); ("id", id);
             ("method", Some (JStr method)); ("params", params)].

Definition invoke_request (id : jsval) (tool_name : string) (ps : list (string * json)) : json :=
  rpc_request id "tools/invoke" (Some (JObj (("name", JStr tool_name) :: ps))).

Definition ready_line : envelope := Notification "notifications/ready" (JObj []).

(** The handlers that go through [handleRegion] and the SDK. *)
Definition aws_handlers : list handler :=
  [ec2_describeInstances; s3_listBuckets; s3_listObjects; lambda_listFunctions;
   dynamodb_listTables; cloudwatch_getMetricStatistics].

(** Lines that get an answer when the log is writable. *)
Definition answered (l : line) : bool :=
  match l with
  | Malformed _ => true
  | Wellformed r => negb (is_initialized_notification r)
  end.

(** What may answer a line: Parse error, or an envelope carrying the
    request's id. *)
Definition reply_ok (l : line) (e : envelope) : Prop :=
  match l with
  | Malformed _ => e = parse_error
  | Wellformed r => e = parse_error \/ envelope_id e = js_prop r "id"
  end.


(** Catalog entries with no handler of their own. *)
Definition tools_without_handler : list string :=
  filter (fun n => match own_handler n with Some _ => false | None => true end) (map name tools).

(* ------------------------------------------------------------------ *)
(** * C1: listed tools and the handler table                           *)
(* ------------------------------------------------------------------ *)

(** C1 (code_bug): the catalog served by tools/list has 22 entries, but
    only 7 of them have a handler: 15 listed tools, among them
    aws.ec2.describeVpcs, answer tools/invoke with
    Failure{id, -32601, "Tool 'aws.ec2.describeVpcs' not found"}. *)
Theorem C1_listed_tool_not_invocable :
  tools_without_handler =
    ["aws.ec2.describeVpcs"; "aws.ec2.describeSecurityGroups";
     "aws.lambda.getFunctionConfiguration"; "aws.dynamodb.describeTable";
     "aws.cloudwatch.describeAlarms"; "aws.iam.listUsers"; "aws.iam.listRoles";
     "aws.rds.describeDBInstances"; "aws.sns.listTopics"; "aws.sqs.listQueues";
     "aws.cloudformation.listStacks"; "aws.route53.listHostedZones";
     "aws.cloudfront.listDistributions"; "aws.ecs.listClusters"; "aws.eks.listClusters"] /\
  (forall sdk w,
     exists w',
       process_line sdk false
         (Wellformed (invoke_request (Some (JNum 1)) "aws.ec2.describeVpcs" [])) w
       = (inr tt, w') /\
       out w' = (out w ++ [ErrorResponse (Some (JNum 1)) (-32601)
                             "Tool 'aws.ec2.describeVpcs' not found"])%list).
Proof.
  split; [vm_compute; reflexivity|].
  intros sdk w. eexists; split; reflexivity.
Qed.

(* ------------------------------------------------------------------ *)
(** * C2: requests without an id                                       *)
(* ------------------------------------------------------------------ *)

(** C2 (counterexample): requests without an id are answered: an
    unknown method, a wrong jsonrpc tag and a failing tool each write a
    line. *)
Lemma C2_id_less_requests_answered :
  out (snd (process_line sdk_unreachable false
              (Wellformed (rpc_request None "resources/list" None)) initial_world))
    = [ready_line; ErrorResponse None (-32601) "Method not found"] /\
  out (snd (process_line sdk_unreachable false
              (Wellformed (JObj [("jsonrpc", JStr "1.0"); ("method", JStr "ping")])) initial_world))
    = [ready_line; ErrorResponse None (-32600) invalid_request_message] /\
  out (snd (process_line sdk_unreachable false
              (Wellformed (invoke_request None "aws.s3.listBuckets" [])) initial_world))
    = [ready_line; ErrorResponse None (-32000)
                     "Tool execution error: S3 Error: connect ETIMEDOUT"].
Proof. vm_compute. repeat split. Qed.

(** C2 (amended): with a writable log, a parsed request without an id
    that is not the jsonrpc 2.0 notifications/initialized message writes
    exactly one line: its answer with the id member left out, or the
    Parse error (id null). *)
Theorem C2_id_less_request_one_line sdk r w :
  js_prop r "id" = None ->
  is_initialized_notification r = false ->
  exists w' e,
    process_line sdk false (Wellformed r) w = (inr tt, w') /\
    out w' = (out w ++ [e])%list /\
    (e = parse_error \/ envelope_id e = None).
Proof.
  intros Hid Hn.
  destruct (process_line_reply sdk r w) as [w' [Hrun Hout]].
  rewrite Hn in Hout. destruct Hout as [e [Ho He]].
  exists w', e. repeat split; [exact Hrun | exact Ho |].
  rewrite <- Hid. exact He.
Qed.

Lemma C2_id_less_request_one_line_witness :
  js_prop (rpc_request None "resources/list" None) "id" = None /\
  is_initialized_notification (rpc_request None "resources/list" None) = false /\
  exists w' e,
    process_line sdk_unreachable false (Wellformed (rpc_request None "resources/list" None))
      initial_world = (inr tt, w') /\
    out w' = (out initial_world ++ [e])%list /\ (e = parse_error \/ envelope_id e = None).
Proof.
  split; [reflexivity|]. split; [reflexivity|].
  apply (C2_id_less_request_one_line sdk_unreachable); reflexivity.
Defined.

(* ------------------------------------------------------------------ *)
(** * C3, C4: faults during dispatch and the single catch              *)
(* ------------------------------------------------------------------ *)

(** C3 (counterexample): initialize without params throws while the
    reply is built; the answer is the Parse error with a null id, not an
    internal error carrying id 1. *)
Lemma C3_initialize_without_params :
  out (snd (process_line sdk_unreachable false
              (Wellformed (rpc_request (Some (JNum 1)) "initialize" None)) initial_world))
    = [ready_line; ErrorResponse (Some JNull) (-32700) "Parse error"].
Proof. vm_compute. reflexivity. Qed.

(** C3 (amended): with a writable log, an exception thrown by the
    dispatch of a parsed request (outside a tool handler, whose faults
    are caught inside the tools/invoke branch) ends in the line
    handler's catch: the answer is Failure{null, -32700, "Parse error"},
    written once, and the line handler completes. *)
Theorem C3_dispatch_fault_answered_as_parse_error sdk r w e w1 :
  process_request sdk false r w = (inl e, w1) ->
  process_line sdk false (Wellformed r) w =
    (inr tt, mkWorld (out w1 ++ [parse_error])
                     (logfile w1 ++ [processing_error (err_message e); sending_error parse_error])
                     (region w1)).
Proof.
  intro H. unfold process_line, try_catch. cbn [bind JSON_parse ret].
  rewrite H. cbn. rewrite <- app_assoc. reflexivity.
Qed.

Lemma C3_dispatch_fault_answered_as_parse_error_witness :
  process_line sdk_unreachable false
    (Wellformed (rpc_request (Some (JNum 1)) "initialize" None)) initial_world =
  (inr tt,
   mkWorld
     (out initial_world ++ [parse_error])
     (logfile initial_world
        ++ [received_request (rpc_request (Some (JNum 1)) "initialize" None);
            processing_error "Cannot read properties of undefined (reading 'protocolVersion')";
            sending_error parse_error])
     (region initial_world)).
Proof.
  rewrite (C3_dispatch_fault_answered_as_parse_error sdk_unreachable _ initial_world
             (TypeError "Cannot read properties of undefined (reading 'protocolVersion')")
             (mkWorld (out initial_world)
                (logfile initial_world
                   ++ [received_request (rpc_request (Some (JNum 1)) "initialize" None)])
                (region initial_world))).
  - reflexivity.
  - reflexivity.
Defined.

(** C4 (counterexample): the well-formed line [null] is answered with
    Failure{null, -32700, "Parse error"}. *)
Lemma C4_wellformed_null_parse_error :
  out (snd (process_line sdk_unreachable false (Wellformed JNull) initial_world))
    = [ready_line; parse_error].
Proof. vm_compute. reflexivity. Qed.

(** C4 (amended): with a writable log, a malformed line writes exactly
    one Failure{null, -32700, "Parse error"} and the loop goes on with
    the next line; the same failure is also written for a well-formed
    line whose dispatch throws, such as [null]. *)
Theorem C4_malformed_line_one_parse_error :
  (forall sdk text ls w,
     run_lines sdk false (Malformed text :: ls) w =
     run_lines sdk false ls
       (mkWorld (out w ++ [parse_error])
                (logfile w ++ [processing_error "Unexpected token in JSON";
                               sending_error parse_error])
                (region w))) /\
  (forall sdk w,
     exists w', process_line sdk false (Wellformed JNull) w = (inr tt, w') /\
                out w' = (out w ++ [parse_error])%list).
Proof.
  split.
  - intros. cbn. rewrite <- app_assoc. reflexivity.
  - intros. eexists; split; reflexivity.
Qed.

(* ------------------------------------------------------------------ *)
(** * C5: one answer per request                                       *)
(* ------------------------------------------------------------------ *)

(** C5 (counterexample): a notifications/initialized request with id 7
    gets no response. *)
Lemma C5_initialized_with_id_unanswered :
  out (snd (process_line sdk_unreachable false
              (Wellformed (rpc_request (Some (JNum 7)) "notifications/initialized" None))
              initial_world))
    = out initial_world.
Proof. vm_compute. reflexivity. Qed.

(** C5 (amended): with a writable log, every parsed request, whatever
    its id, writes exactly one line, except the jsonrpc 2.0
    notifications/initialized message, which writes none. *)
Theorem C5_one_line_per_request sdk r w :
  exists w',
    process_line sdk false (Wellformed r) w = (inr tt, w') /\
    (if is_initialized_notification r then out w' = out w
     else exists e, out w' = (out w ++ [e])%list).
Proof.
  destruct (process_line_reply sdk r w) as [w' [Hrun Hout]].
  exists w'. split; [exact Hrun|].
  destruct (is_initialized_notification r); [exact Hout|].
  destruct Hout as [e [Ho _]]. exists e. exact Ho.
Qed.

(* ------------------------------------------------------------------ *)
(** * C6, C7: tools/invoke                                             *)
(* ------------------------------------------------------------------ *)

(** C6 (code_bug): "constructor" names no registered handler, but the
    lookup [toolHandlers[toolName]] finds the member inherited from
    Object.prototype, so tools/invoke calls [Object(parameters)] and
    answers with the parameters instead of the not-found failure. *)
Theorem C6_inherited_member_invoked :
  own_handler "constructor" = None /\
  (forall sdk w,
     exists w',
       process_line sdk false
         (Wellformed (invoke_request (Some (JNum 1)) "constructor"
                        [("parameters", JObj [("x", JNum 1)])])) w = (inr tt, w') /\
       out w' = (out w ++ [Response (Some (JNum 1)) (Some (JObj [("x", JNum 1)]))])%list).
Proof.
  split; [reflexivity|].
  intros sdk w. eexists; split; reflexivity.
Qed.

(** The tools/invoke branch for a handler found among the table's own
    members. *)
Lemma invoke_own_handler sdk r w pms nm h :
  js_prop r "jsonrpc" = Some (JStr "2.0") ->
  js_prop r "method" = Some (JStr "tools/invoke") ->
  js_prop r "params" = Some (JObj pms) ->
  assoc_last "name" pms = Some nm ->
  truthy (Some nm) = true ->
  own_handler (json_to_string nm) = Some h ->
  exists w',
    process_line sdk false (Wellformed r) w = (inr tt, w') /\
    match call_handler sdk h (js_or (assoc_last "parameters" pms) (JObj []))
            (mkWorld (out w) (logfile w ++ [received_request r]) (region w)) with
    | (inr result, w2) =>
        out w' = (out w2 ++ [Response (js_prop r "id") result])%list /\
        region w' = region w2
    | (inl e, w2) =>
        out w' = (out w2 ++ [ErrorResponse (js_prop r "id") (-32000)
                               ("Tool execution error: " ++ err_message e)])%list /\
        region w' = region w2
    end.
Proof.
  intros Hv Hm Hp Hn Ht Hh.
  destruct r as [| | | | |ms]; try discriminate.
  cbn in Hv, Hm, Hp.
  unfold process_line, try_catch, bind at 1; cbn -[call_handler toolHandlers_lookup].
  rewrite Hv, Hm; cbn -[call_handler toolHandlers_lookup].
  rewrite Hp; cbn -[call_handler toolHandlers_lookup].
  rewrite Hn, Ht; cbn -[call_handler toolHandlers_lookup].
  rewrite (lookup_own _ _ Hh).
  unfold try_catch, bind; cbn -[call_handler].
  destruct (call_handler sdk h (js_or (assoc_last "parameters" pms) (JObj [])) _)
    as [[e|result] w2]; cbn; eexists; split; try reflexivity; split; reflexivity.
Qed.

(** C7: with a writable log, a tools/invoke whose name resolves to a
    handler of the table runs that handler on params.parameters (or {})
    and always completes the line: a normal return [result] is answered
    as Success{id, result}; a throw or rejection with message m as
    Failure{id, -32000, "Tool execution error: " + m}. *)
Theorem C7_handler_outcome_wrapped sdk r w pms nm h :
  js_prop r "jsonrpc" = Some (JStr "2.0") ->
  js_prop r "method" = Some (JStr "tools/invoke") ->
  js_prop r "params" = Some (JObj pms) ->
  assoc_last "name" pms = Some nm ->
  truthy (Some nm) = true ->
  own_handler (json_to_string nm) = Some h ->
  exists w',
    process_line sdk false (Wellformed r) w = (inr tt, w') /\
    match call_handler sdk h (js_or (assoc_last "parameters" pms) (JObj []))
            (mkWorld (out w) (logfile w ++ [received_request r]) (region w)) with
    | (inr result, w2) =>
        out w' = (out w2 ++ [Response (js_prop r "id") result])%list /\
        region w' = region w2
    | (inl e, w2) =>
        out w' = (out w2 ++ [ErrorResponse (js_prop r "id") (-32000)
                               ("Tool execution error: " ++ err_message e)])%list /\
        region w' = region w2
    end.
Proof.
  exact (invoke_own_handler sdk r w pms nm h).
Qed.

Lemma C7_handler_outcome_wrapped_witness :
  exists w',
    process_line sdk_unreachable false
      (Wellformed (invoke_request (Some (JNum 2)) "ping" [])) initial_world = (inr tt, w') /\
    match call_handler sdk_unreachable ping (JObj [])
            (mkWorld (out initial_world)
               (logfile initial_world ++ [received_request (invoke_request (Some (JNum 2)) "ping" [])])
               (region initial_world)) with
    | (inr result, w2) =>
        out w' = (out w2 ++ [Response (Some (JNum 2)) result])%list /\ region w' = region w2
    | (inl e, w2) =>
        out w' = (out w2 ++ [ErrorResponse (Some (JNum 2)) (-32000)
                               ("Tool execution error: " ++ err_message e)])%list /\
        region w' = region w2
    end.
Proof.
  apply (C7_handler_outcome_wrapped sdk_unreachable
           (invoke_request (Some (JNum 2)) "ping" []) initial_world
           [("name", JStr "ping")] (JStr "ping") ping); reflexivity.
Defined.

(* ------------------------------------------------------------------ *)
(** * C8: the tools/list answer                                        *)
(* ------------------------------------------------------------------ *)

(** C8: with a writable log, tools/list answers Success{id, {tools: ds}}
    where ds has one descriptor per catalog entry, in catalog order,
    each {name, description, inputSchema:{type:"object", properties,
    required, additionalProperties:false}} built from the entry's own
    properties and required, and every required name is a key of
    properties. *)
Theorem C8_tools_list_descriptors sdk r w :
  js_prop r "jsonrpc" = Some (JStr "2.0") ->
  js_prop r "method" = Some (JStr "tools/list") ->
  exists w' ds,
    process_line sdk false (Wellformed r) w = (inr tt, w') /\
    out w' = (out w ++ [Response (js_prop r "id") (Some (JObj [("tools", JArr ds)]))])%list /\
    length ds = length tools /\
    Forall2 (fun t d =>
      exists props req,
        js_prop (parameters t) "properties" = Some (JObj props) /\
        js_prop (parameters t) "required" = Some (JArr req) /\
        d = JObj [("name", JStr (name t)); ("description", JStr (description t));
                  ("inputSchema", JObj [("type", JStr "object"); ("properties", JObj props);
                                        ("required", JArr req);
                                        ("additionalProperties", JBool false)])] /\
        (forall k, In (JStr k) req -> In k (map fst props))) tools ds.
Proof.
  intros Hv Hm.
  destruct r as [| | | | |ms]; try discriminate.
  cbn in Hv, Hm.
  exists (snd (process_line sdk false (Wellformed (JObj ms)) w)), (map tool_descriptor tools).
  split; [|split; [|split]].
  - unfold process_line, try_catch, bind at 1; cbn -[tools_list_result].
    rewrite Hv, Hm. reflexivity.
  - unfold process_line, try_catch, bind at 1; cbn -[tools_list_result].
    rewrite Hv, Hm. reflexivity.
  - apply length_map.
  - apply Forall2_map_r. intros t Ht.
    apply catalog_schema_ok_spec.
    pose proof catalog_schema_all_ok as Hall.
    rewrite forallb_forall in Hall. exact (Hall t Ht).
Qed.

Lemma C8_tools_list_descriptors_witness :
  exists w' ds,
    process_line sdk_unreachable false (Wellformed (rpc_request (Some (JNum 4)) "tools/list" None))
      initial_world = (inr tt, w') /\
    out w' = (out initial_world ++ [Response (Some (JNum 4)) (Some (JObj [("tools", JArr ds)]))])%list /\
    length ds = length tools /\
    Forall2 (fun t d =>
      exists props req,
        js_prop (parameters t) "properties" = Some (JObj props) /\
        js_prop (parameters t) "required" = Some (JArr req) /\
        d = JObj [("name", JStr (name t)); ("description", JStr (description t));
                  ("inputSchema", JObj [("type", JStr "object"); ("properties", JObj props);
                                        ("required", JArr req);
                                        ("additionalProperties", JBool false)])] /\
        (forall k, In (JStr k) req -> In k (map fst props))) tools ds.
Proof.
  apply (C8_tools_list_descriptors sdk_unreachable
           (rpc_request (Some (JNum 4)) "tools/list" None) initial_world); reflexivity.
Defined.

(* ------------------------------------------------------------------ *)
(** * C9: ping                                                         *)
(* ------------------------------------------------------------------ *)

(** C9: with a writable log, in every process state (so after any
    other invocations) and for any parameters, tools/invoke of "ping"
    answers Success{id, {"result":"pong"}} and leaves the region
    configuration unchanged; only its own line is written. *)
Theorem C9_ping_pong sdk r w pms :
  js_prop r "jsonrpc" = Some (JStr "2.0") ->
  js_prop r "method" = Some (JStr "tools/invoke") ->
  js_prop r "params" = Some (JObj pms) ->
  assoc_last "name" pms = Some (JStr "ping") ->
  exists w',
    process_line sdk false (Wellformed r) w = (inr tt, w') /\
    out w' = (out w ++ [Response (js_prop r "id") (Some (JObj [("result", JStr "pong")]))])%list /\
    region w' = region w.
Proof.
  intros Hv Hm Hp Hn.
  destruct (invoke_own_handler sdk r w pms (JStr "ping") ping Hv Hm Hp Hn
              eq_refl eq_refl) as [w' [Hrun Hres]].
  cbn in Hres. exists w'. split; [exact Hrun | exact Hres].
Qed.

Lemma C9_ping_pong_witness :
  exists w',
    process_line sdk_unreachable false
      (Wellformed (invoke_request (Some (JNum 2)) "ping" [("parameters", JObj [("region", JStr "eu-west-1")])]))
      initial_world = (inr tt, w') /\
    out w' = (out initial_world ++ [Response (Some (JNum 2)) (Some (JObj [("result", JStr "pong")]))])%list /\
    region w' = region initial_world.
Proof.
  apply (C9_ping_pong sdk_unreachable
           (invoke_request (Some (JNum 2)) "ping" [("parameters", JObj [("region", JStr "eu-west-1")])])
           initial_world
           [("name", JStr "ping"); ("parameters", JObj [("region", JStr "eu-west-1")])]);
    reflexivity.
Defined.

(* ------------------------------------------------------------------ *)
(** * C10: a log file that cannot be written                           *)
(* ------------------------------------------------------------------ *)

(** C10 (counterexample): when the log cannot be written, a ping with
    id 2 gets no response: the error escapes the line handler. *)
Lemma C10_log_fault_suppresses_response :
  process_line sdk_unreachable true
    (Wellformed (invoke_request (Some (JNum 2)) "ping" [])) initial_world
  = (inl log_write_error, initial_world).
Proof. reflexivity. Qed.

(** C10 (amended): log faults are not swallowed.  When appending to the
    log raises, the first line's processing ends with that error thrown
    out of the line handler (an unhandled rejection, which ends the
    process), nothing is written for it and no later line is read. *)
Theorem C10_log_fault_escapes sdk l ls w :
  process_line sdk true l w = (inl log_write_error, w) /\
  run_lines sdk true (l :: ls) w = (inl log_write_error, w).
Proof.
  destruct l; split; reflexivity.
Qed.

(* ------------------------------------------------------------------ *)
(** * Further properties of the line handler                           *)
(* ------------------------------------------------------------------ *)

(** A parsed object request whose jsonrpc member is not the string
    "2.0" is answered Failure{id, -32600, "Invalid Request: Not
    JSON-RPC 2.0"}, whatever its method, before anything else is read. *)
Theorem X_invalid_version_rejected sdk r w :
  r <> JNull ->
  strict_eq_str (js_prop r "jsonrpc") "2.0" = false ->
  exists w',
    process_line sdk false (Wellformed r) w = (inr tt, w') /\
    out w' = (out w ++ [ErrorResponse (js_prop r "id") (-32600) invalid_request_message])%list /\
    region w' = region w.
Proof.
  intros Hnull Hv.
  destruct r as [| | | | |ms]; try (exfalso; apply Hnull; reflexivity);
    try (eexists; split; [reflexivity | split; reflexivity]).
  cbn in Hv. unfold process_line, try_catch, bind at 1; cbn -[call_handler].
  rewrite Hv. eexists; split; [reflexivity | split; reflexivity].
Qed.

Lemma X_invalid_version_rejected_witness :
  exists w',
    process_line sdk_unreachable false
      (Wellformed (JObj [("jsonrpc", JStr "1.0"); ("id", JNum 5); ("method", JStr "tools/list")]))
      initial_world = (inr tt, w') /\
    out w' = (out initial_world ++ [ErrorResponse (Some (JNum 5)) (-32600) invalid_request_message])%list /\
    region w' = region initial_world.
Proof.
  apply (X_invalid_version_rejected sdk_unreachable
           (JObj [("jsonrpc", JStr "1.0"); ("id", JNum 5); ("method", JStr "tools/list")]));
    [discriminate | reflexivity].
Defined.

(** A jsonrpc 2.0 request whose method is none of initialize,
    tools/list, tools/invoke and notifications/initialized (compared
    exactly, as strings) is answered Failure{id, -32601, "Method not
    found"}. *)
Theorem X_unknown_method_rejected sdk r w :
  js_prop r "jsonrpc" = Some (JStr "2.0") ->
  strict_eq_str (js_prop r "method") "initialize" = false ->
  strict_eq_str (js_prop r "method") "tools/list" = false ->
  strict_eq_str (js_prop r "method") "tools/invoke" = false ->
  strict_eq_str (js_prop r "method") "notifications/initialized" = false ->
  exists w',
    process_line sdk false (Wellformed r) w = (inr tt, w') /\
    out w' = (out w ++ [ErrorResponse (js_prop r "id") (-32601) "Method not found"])%list /\
    region w' = region w.
Proof.
  intros Hv H1 H2 H3 H4.
  destruct r as [| | | | |ms]; try discriminate.
  cbn in Hv, H1, H2, H3, H4. unfold process_line, try_catch, bind at 1; cbn -[call_handler].
  rewrite Hv; cbn -[call_handler]. rewrite H1, H2, H3, H4.
  eexists; split; [reflexivity | split; reflexivity].
Qed.

Lemma X_unknown_method_rejected_witness :
  exists w',
    process_line sdk_unreachable false
      (Wellformed (rpc_request (Some (JStr "a")) "Tools/List" None)) initial_world = (inr tt, w') /\
    out w' = (out initial_world ++ [ErrorResponse (Some (JStr "a")) (-32601) "Method not found"])%list /\
    region w' = region initial_world.
Proof.
  apply (X_unknown_method_rejected sdk_unreachable
           (rpc_request (Some (JStr "a")) "Tools/List" None)); reflexivity.
Defined.

(** initialize with an object params answers Success{id, result} where
    result echoes params.protocolVersion (the member is absent when
    protocolVersion is), declares capabilities {tools:{}} and names the
    server aws-mcp-server 1.0.0. *)
Theorem X_initialize_echoes_version sdk r w pms :
  js_prop r "jsonrpc" = Some (JStr "2.0") ->
  js_prop r "method" = Some (JStr "initialize") ->
  js_prop r "params" = Some (JObj pms) ->
  exists w' result,
    process_line sdk false (Wellformed r) w = (inr tt, w') /\
    out w' = (out w ++ [Response (js_prop r "id") (Some result)])%list /\
    js_prop result "protocolVersion" = assoc_last "protocolVersion" pms /\
    js_prop result "capabilities" = Some (JObj [("tools", JObj [])]) /\
    js_prop result "serverInfo" =
      Some (JObj [("name", JStr "aws-mcp-server"); ("version", JStr "1.0.0")]).
Proof.
  intros Hv Hm Hp.
  destruct r as [| | | | |ms]; try discriminate.
  cbn in Hv, Hm, Hp. unfold process_line, try_catch, bind at 1; cbn -[call_handler].
  rewrite Hv, Hm; cbn -[call_handler]. rewrite Hp; cbn -[call_handler initialize_result].
  eexists; exists (initialize_result (assoc_last "protocolVersion" pms)).
  split; [reflexivity|]. split; [reflexivity|].
  destruct (assoc_last "protocolVersion" pms); repeat split.
Qed.

Lemma X_initialize_echoes_version_witness :
  exists w' result,
    process_line sdk_unreachable false
      (Wellformed (rpc_request (Some (JNum 1)) "initialize"
                     (Some (JObj [("protocolVersion", JStr "2.0")])))) initial_world = (inr tt, w') /\
    out w' = (out initial_world ++ [Response (Some (JNum 1)) (Some result)])%list /\
    js_prop result "protocolVersion" = Some (JStr "2.0") /\
    js_prop result "capabilities" = Some (JObj [("tools", JObj [])]) /\
    js_prop result "serverInfo" =
      Some (JObj [("name", JStr "aws-mcp-server"); ("version", JStr "1.0.0")]).
Proof.
  apply (X_initialize_echoes_version sdk_unreachable
           (rpc_request (Some (JNum 1)) "initialize" (Some (JObj [("protocolVersion", JStr "2.0")])))
           initial_world [("protocolVersion", JStr "2.0")]); reflexivity.
Defined.



(** The registry's own invariants: catalog names are pairwise distinct,
    the handler table has no duplicate key, and every handler belongs
    to a catalog entry (the converse fails, see C1). *)
Theorem X_registry_names_consistent :
  NoDup (map name tools) /\
  NoDup (map fst toolHandlers) /\
  (forall k h, In (k, h) toolHandlers -> In k (map name tools)).
Proof.
  split; [|split].
  - cbn. repeat constructor; cbn; intuition discriminate.
  - cbn. repeat constructor; cbn; intuition discriminate.
  - intros k h Hin. cbn in Hin.
    repeat (destruct Hin as [Hin|Hin]; [injection Hin as <- <-; cbn; tauto|]).
    destruct Hin.
Qed.

(* ------------------------------------------------------------------ *)
(** * The AWS handlers: region handling and argument checks            *)
(* ------------------------------------------------------------------ *)

Lemma handleRegion_given p w :
  truthy (js_prop p "region") = true ->
  handleRegion p w = (inr (js_prop p "region"), mkWorld (out w) (logfile w) (js_prop p "region")).
Proof.
  intro H. destruct p as [| | | | |ms]; try discriminate.
  cbn in *. rewrite H. reflexivity.
Qed.




Lemma call_aws_handler_sets_region sdk h p w :
  In h aws_handlers ->
  truthy (js_prop p "region") = true ->
  region (snd (call_handler sdk h p w)) = js_prop p "region".
Proof.
  intros Hh Hr.
  assert (Hobj : exists ms, p = JObj ms)
    by (destruct p; try discriminate; eexists; reflexivity).
  destruct Hobj as [ms ->].
  cbn in Hh; repeat (destruct Hh as [<-|Hh]; [|]); [..|destruct Hh];
  unfold call_handler, aws_handler, bind;
  rewrite (handleRegion_given _ _ Hr); cbn;
  unfold getMetricStatistics_checks, listObjects_checks, require_param, bind; cbn;
  repeat match goal with
         | |- context [if ?b then _ else _] => destruct b
         | |- context [match ?x with inl _ => _ | inr _ => _ end] => destruct x
         end; reflexivity.
Qed.




Lemma invoke_aws_sets_region sdk r w pms nm h :
  js_prop r "jsonrpc" = Some (JStr "2.0") ->
  js_prop r "method" = Some (JStr "tools/invoke") ->
  js_prop r "params" = Some (JObj pms) ->
  assoc_last "name" pms = Some nm ->
  truthy (Some nm) = true ->
  own_handler (json_to_string nm) = Some h ->
  In h aws_handlers ->
  truthy (js_prop (js_or (assoc_last "parameters" pms) (JObj [])) "region") = true ->
  exists w' e,
    process_line sdk false (Wellformed r) w = (inr tt, w') /\
    out w' = (out w ++ [e])%list /\
    region w' = js_prop (js_or (assoc_last "parameters" pms) (JObj [])) "region".
Proof.
  intros Hv Hm Hp Hn Ht Hh Hin Hr.
  destruct (invoke_own_handler sdk r w pms nm h Hv Hm Hp Hn Ht Hh) as [w' [Hrun Hw]].
  pose proof (call_aws_handler_sets_region sdk h (js_or (assoc_last "parameters" pms) (JObj []))
                (mkWorld (out w) (logfile w ++ [received_request r]) (region w)) Hin Hr) as Hreg.
  pose proof (keeps_out_call_handler sdk h (js_or (assoc_last "parameters" pms) (JObj []))
                (mkWorld (out w) (logfile w ++ [received_request r]) (region w))) as Hk.
  destruct (call_handler sdk h _ _) as [[e|res] w2]; cbn in Hreg, Hk;
    destruct Hw as [Ho Hrw]; exists w'; eexists;
    (split; [exact Hrun | split; [rewrite Ho, Hk; reflexivity | rewrite Hrw; exact Hreg]]).
Qed.


(** An AWS tool call whose arguments name a truthy region switches the
    process-wide region to it (AWS.config.update) before the argument
    checks and the remote call, so the switch stays in force even when
    the call is rejected or fails; the call is still answered by one
    line. *)
Theorem X_region_update sdk r w pms nm h :
  js_prop r "jsonrpc" = Some (JStr "2.0") ->
  js_prop r "method" = Some (JStr "tools/invoke") ->
  js_prop r "params" = Some (JObj pms) ->
  assoc_last "name" pms = Some nm ->
  truthy (Some nm) = true ->
  own_handler (json_to_string nm) = Some h ->
  In h aws_handlers ->
  truthy (js_prop (js_or (assoc_last "parameters" pms) (JObj [])) "region") = true ->
  exists w' e,
    process_line sdk false (Wellformed r) w = (inr tt, w') /\
    out w' = (out w ++ [e])%list /\
    region w' = js_prop (js_or (assoc_last "parameters" pms) (JObj [])) "region".
Proof. exact (invoke_aws_sets_region sdk r w pms nm h). Qed.

Lemma X_region_update_witness :
  exists w' e,
    process_line sdk_unreachable false
      (Wellformed (invoke_request (Some (JNum 1)) "aws.s3.listObjects"
                     [("parameters", JObj [("region", JStr "eu-west-1")])])) initial_world
      = (inr tt, w') /\
    out w' = (out initial_world ++ [e])%list /\
    region w' = Some (JStr "eu-west-1").
Proof.
  apply (X_region_update sdk_unreachable
           (invoke_request (Some (JNum 1)) "aws.s3.listObjects"
              [("parameters", JObj [("region", JStr "eu-west-1")])])
           initial_world
           [("name", JStr "aws.s3.listObjects"); ("parameters", JObj [("region", JStr "eu-west-1")])]
           (JStr "aws.s3.listObjects") s3_listObjects);
    try reflexivity; cbn; tauto.
Defined.









(** The transport loop with a writable log, lines delivered one at a
    time: it never stops early, and its output is the input's answered
    lines (all but the notifications/initialized requests), in order,
    one line each: Parse error for a malformed line, Parse error or an
    envelope carrying the request's id for a parsed one. *)
Theorem X_run_lines_stream sdk ls w :
  exists w' es,
    run_lines sdk false ls w = (inr tt, w') /\
    out w' = (out w ++ es)%list /\
    Forall2 reply_ok (filter answered ls) es.
Proof.
  revert w. induction ls as [|l ls IH]; intro w.
  - exists w, []. rewrite app_nil_r. split; [reflexivity | split; [reflexivity | constructor]].
  - destruct l as [text|r].
    + destruct (IH (mkWorld (out w ++ [parse_error])
                      (logfile w ++ [processing_error "Unexpected token in JSON";
                                     sending_error parse_error]) (region w)))
        as [w' [es [Hrun [Ho Hf]]]].
      exists w', (parse_error :: es). split; [|split].
      * cbn. rewrite <- app_assoc. exact Hrun.
      * rewrite Ho. cbn. rewrite <- app_assoc. reflexivity.
      * cbn. constructor; [reflexivity | exact Hf].
    + destruct (process_line_reply sdk r w) as [w1 [Hrun1 Hout1]].
      destruct (IH w1) as [w' [es [Hrun [Ho Hf]]]].
      assert (Hstep : run_lines sdk false (Wellformed r :: ls) w = (inr tt, w')).
      { unfold run_lines at 1; fold (run_lines sdk false ls). unfold bind at 1.
        rewrite Hrun1. exact Hrun. }
      cbn [filter answered]. destruct (is_initialized_notification r); cbn.
      * exists w', es. rewrite Hout1 in Ho. split; [exact Hstep | split; assumption].
      * destruct Hout1 as [e [Ho1 He]].
        exists w', (e :: es). split; [exact Hstep | split].
        -- rewrite Ho, Ho1, <- app_assoc. reflexivity.
        -- constructor; [exact He | exact Hf].
Qed.


(* ------------------------------------------------------------------ *)
(** * parseRelativeTime: the strings it reads                          *)
(* ------------------------------------------------------------------ *)





Lemma append_nil_str a : a ++ "" = a.
Proof. induction a as [|x a IH]; cbn; [reflexivity | rewrite IH; reflexivity]. Qed.
























